(** * geom.py: 2D geometry helpers for collision detection

    A shallow embedding of [geom.py] and the properties of its functions.

    Number model.  The coordinates, radii and angles of the program are
    Python numbers; they are read here as exact real numbers ([R]), which is
    the data model of the specification ("a pair of real-valued coordinates").
    The one special value the program creates itself, [math.inf], is kept
    apart as a constructor of its own ([Inf]), so that the comparisons the
    program makes against it ([==], [math.isinf]) are modelled as written.
    Rounding, overflow and NaN of binary floating point are outside the
    model.

    Object model.  The program dispatches on the run-time class of its
    arguments with [isinstance]; the values that reach it (tuples, entities,
    walls and the [False] that [point_of_intersection] returns) are the
    constructors of [pyobj].  Exceptions are the [Raise] outcomes of
    [result]. *)

From Stdlib Require Import Reals Lra List Bool Arith Lia.
From Equations Require Import Equations.
Import ListNotations.

Open Scope R_scope.

(** ** Python values *)

(** Comparisons of two real numbers, as booleans. *)
Definition Req_b (a b : R) : bool := if Req_dec_T a b then true else false.
Definition Rlt_b (a b : R) : bool := if Rlt_dec a b then true else false.
Definition Rgt_b (a b : R) : bool := if Rgt_dec a b then true else false.
Definition Rle_b (a b : R) : bool := if Rle_dec a b then true else false.
Definition Rge_b (a b : R) : bool := if Rge_dec a b then true else false.

(** A number that may be [math.inf]: the values a slope takes. *)
Inductive num : Type :=
| Fin (r : R)
| Inf.

(** [a == b] *)
Definition num_eqb (a b : num) : bool :=
  match a, b with
  | Fin r1, Fin r2 => Req_b r1 r2
  | Inf, Inf => true
  | _, _ => false
  end.

(** [math.isinf(a)] *)
Definition isinf (a : num) : bool :=
  match a with
  | Inf => true
  | Fin _ => false
  end.

(** [abs(a)] *)
Definition num_abs (a : num) : num :=
  match a with
  | Fin r => Fin (Rabs r)
  | Inf => Inf
  end.

(** The real number held by a finite [num].  The program does arithmetic on a
    slope only after it has tested that the slope is not [math.inf], so the
    value chosen at [Inf] is never looked at. *)
Definition fin (a : num) : R :=
  match a with
  | Fin r => r
  | Inf => 0
  end.

(** Exceptions the modelled code can raise. *)
Inductive exn : Type :=
| ZeroDivisionError
| TypeError
| IndexError.

Inductive result (A : Type) : Type :=
| Ok (a : A)
| Raise (e : exn).
Arguments Ok {A} a.
Arguments Raise {A} e.

Definition bind {A B : Type} (c : result A) (k : A -> result B) : result B :=
  match c with
  | Ok a => k a
  | Raise e => Raise e
  end.

Notation "v <- c ;; k" := (bind c (fun v => k))
  (at level 61, c at next level, right associativity).

(** [a / b] where the divisor is not guarded by the caller. *)
Definition pydiv (a b : R) : result R :=
  if Req_b b 0 then Raise ZeroDivisionError else Ok (a / b).

(** [a % b], for a positive modulus: [a - b * floor (a / b)]. *)
Definition pymod (a b : R) : R := a - b * IZR (Int_part (a / b)).

(** [l[i]] for a non-negative index. *)
Definition index {A : Type} (l : list A) (i : nat) : result A :=
  match nth_error l i with
  | Some v => Ok v
  | None => Raise IndexError
  end.

(** ** The data model *)

Definition Point : Type := (R * R)%type.
Definition Line : Type := (Point * Point)%type.

(** Modelled from the spec: the class [entity.Entity], which [geom.py]
    imports.  An entity has a position ([x], [y]) and a collision radius
    ([COLLISION_RADIUS]) and exposes a center point ([center()], a tuple),
    which may differ from its position. *)
Record Entity : Type := mkEntity {
  x : R;
  y : R;
  COLLISION_RADIUS : R;
  center : Point
}.

(** Modelled from the spec: the class [wall.Wall], which [geom.py] imports.
    A wall is an ordered sequence of vertices ([vertices]) with its vertex
    count ([num_vertices()]). *)
Record Wall : Type := mkWall {
  vertices : list Point
}.

Definition num_vertices (wall_ : Wall) : nat := length (vertices wall_).

(** The objects that reach the [isinstance] tests of [distance] and
    [collision]. *)
Inductive pyobj : Type :=
| PyTuple (p : Point)
| PyEntity (e : Entity)
| PyWall (w : Wall)
| PyFalse.

(** [d < r] where [d] is what [distance] returned: comparing [None] with a
    number raises [TypeError]. *)
Definition py_lt (d : option R) (r : R) : result bool :=
  match d with
  | Some v => Ok (Rlt_b v r)
  | None => Raise TypeError
  end.

(** ** Simple math functions *)

Definition max (a b : R) : R := if Rgt_b a b then a else b.
Definition min (a b : R) : R := if Rlt_b a b then a else b.

Definition sign (n : R) : Z :=
  if Req_b n 0 then 0%Z
  else if Rgt_b n 0 then 1%Z
  else (-1)%Z.

(** ** Line math *)

Definition slope (p1 p2 : Point) : num :=
  if Req_b (fst p1) (fst p2) then Inf
  else Fin ((snd p2 - snd p1) / (fst p2 - fst p1)).

Definition on_segment (point : Point) (line : Line) : bool :=
  num_eqb (slope point (fst line)) (slope point (snd line)) &&
  Rge_b (fst point) (min (fst (fst line)) (fst (snd line))) &&
  Rle_b (fst point) (max (fst (fst line)) (fst (snd line))) &&
  Rge_b (snd point) (min (snd (fst line)) (snd (snd line))) &&
  Rle_b (snd point) (max (snd (fst line)) (snd (snd line))).

Definition point_of_intersection (line1 line2 : Line) : pyobj :=
  let slope1 := slope (fst line1) (snd line1) in
  let slope2 := slope (fst line2) (snd line2) in
  let const1 := if num_eqb slope1 Inf then 0
                else snd (fst line1) - fst (fst line1) * fin slope1 in
  let const2 := if num_eqb slope2 Inf then 0
                else snd (fst line2) - fst (fst line2) * fin slope2 in
  if num_eqb slope1 slope2 then PyFalse
  else if isinf slope1 then
    let intersectionX := fst (fst line1) in
    let intersectionY := fin slope2 * intersectionX + const2 in
    PyTuple (intersectionX, intersectionY)
  else if isinf slope2 then
    let intersectionX := fst (fst line2) in
    let intersectionY := fin slope1 * intersectionX + const1 in
    PyTuple (intersectionX, intersectionY)
  else
    let slopeTemp := fin slope1 - fin slope2 in
    let constTemp := const2 - const1 in
    let intersectionX := constTemp / slopeTemp in
    let intersectionY := fin slope1 * intersectionX + const1 in
    PyTuple (intersectionX, intersectionY).

(** ** Functions involving classes *)

(** The entity-and-tuple case of [distance] calls [distance] again with the
    arguments swapped; the call goes to the tuple-and-entity case, which
    returns. *)
Definition distance_rank (a b : pyobj) : nat :=
  match a, b with
  | PyEntity _, PyTuple _ => 1
  | _, _ => 0
  end.

Equations distance (a b : pyobj) : option R by wf (distance_rank a b) lt :=
  distance (PyTuple a) (PyTuple b) :=
    Some (sqrt ((fst a - fst b) ^ 2 + (snd a - snd b) ^ 2));
  distance (PyTuple a) (PyEntity b) :=
    Some (sqrt ((fst a - x b) ^ 2 + (snd a - y b) ^ 2));
  distance (PyEntity a) (PyTuple b) := distance (PyTuple b) (PyEntity a);
  distance (PyEntity a) (PyEntity b) :=
    Some (sqrt ((x a - x b) ^ 2 + (y a - y b) ^ 2));
  distance _ _ := None.

(** [math.degrees] *)
Definition degrees (r : R) : R := r * (180 / PI).

Definition angle_to_point (entity_ : Entity) (point : Point) : result R :=
  q <- pydiv (snd point - y entity_) (fst point - x entity_) ;;
  Ok (- degrees (atan q)
      + pymod (if Rlt_b (fst point - x entity_) 0 then 180 else 0) 360).

(** [o[0]], [o[1]]: a tuple gives its coordinates; [False] is not
    subscriptable. *)
Definition as_point (o : pyobj) : result Point :=
  match o with
  | PyTuple p => Ok p
  | _ => Raise TypeError
  end.

(** The value the loop of [collision] gives its variable [temp_point] for a
    side: with the entity's center it defines the line that is intersected
    with the side. *)
Definition temp_point (entity_ : Entity) (side : Line) : Point :=
  if num_eqb (num_abs (slope (fst side) (snd side))) (Fin 0)
  then (x entity_, y entity_ + 1)
  else if isinf (slope (fst side) (snd side))
  then (x entity_ + 1, y entity_)
  else (x entity_, y entity_ + (-1) / fin (slope (fst side) (snd side))).

(** The body of the loop of [collision] over the sides of a wall, for the
    side that starts at vertex [i]: [Ok true] is [return True], [Ok false]
    goes on to the next side. *)
Definition collision_side (entity_ : Entity) (wall_ : Wall) (i : nat)
  : result bool :=
  v0 <- index (vertices wall_) i ;;
  v1 <- index (vertices wall_) ((i + 1) mod num_vertices wall_) ;;
  let side := (v0, v1) in
  let intersection :=
    point_of_intersection side (center entity_, temp_point entity_ side) in
  near <- py_lt (distance (PyTuple (center entity_)) intersection)
                (COLLISION_RADIUS entity_) ;;
  on <- (if near
         then p <- as_point intersection ;; Ok (on_segment p side)
         else Ok false) ;;
  if on then Ok true
  else
    vi <- index (vertices wall_) i ;;
    py_lt (distance (PyTuple (center entity_)) (PyTuple vi))
          (COLLISION_RADIUS entity_).

(** [for i in range(0, wall_.num_vertices())], then [return False]. *)
Fixpoint collision_loop (entity_ : Entity) (wall_ : Wall) (range : list nat)
  : result bool :=
  match range with
  | [] => Ok false
  | i :: rest =>
      hit <- collision_side entity_ wall_ i ;;
      if hit then Ok true else collision_loop entity_ wall_ rest
  end.

(** The wall-and-entity case of [collision] calls [collision] again with the
    arguments swapped. *)
Definition collision_rank (a b : pyobj) : nat :=
  match a, b with
  | PyWall _, PyEntity _ => 1
  | _, _ => 0
  end.

(** [Ok (Some v)] is [return v]; [Ok None] is the [None] of a call that no
    [isinstance] case accepts. *)
Equations collision (a b : pyobj) : result (option bool)
  by wf (collision_rank a b) lt :=
  collision (PyEntity a) (PyEntity b) :=
    v <- py_lt (distance (PyTuple (center a)) (PyTuple (center b)))
               (COLLISION_RADIUS a + COLLISION_RADIUS b) ;;
    Ok (Some v);
  collision (PyEntity a) (PyWall b) :=
    v <- collision_loop a b (seq 0 (num_vertices b)) ;;
    Ok (Some v);
  collision (PyWall a) (PyEntity b) := collision (PyEntity b) (PyWall a);
  collision _ _ := Ok None.

(** ** Notions the properties are stated with *)

(** The Euclidean distance between two points. *)
Definition euclid (p q : Point) : R :=
  sqrt ((fst p - fst q) ^ 2 + (snd p - snd q) ^ 2).








(** The pairs of objects [collision] has a case for: two entities, or an
    entity and a wall in either order. *)
Definition collision_case (a b : pyobj) : bool :=
  match a, b with
  | PyEntity _, PyEntity _ | PyEntity _, PyWall _ | PyWall _, PyEntity _ =>
      true
  | _, _ => false
  end.



(** ** Comparisons *)

Lemma Req_b_true (a b : R) : Req_b a b = true <-> a = b.
Proof. unfold Req_b. destruct (Req_dec_T a b); split; congruence. Qed.

Lemma Req_b_false (a b : R) : Req_b a b = false <-> a <> b.
Proof. unfold Req_b. destruct (Req_dec_T a b); split; congruence. Qed.

Lemma Rlt_b_true (a b : R) : Rlt_b a b = true <-> a < b.
Proof. unfold Rlt_b. destruct (Rlt_dec a b); split; intros; congruence || lra. Qed.

Lemma Rlt_b_false (a b : R) : Rlt_b a b = false <-> b <= a.
Proof. unfold Rlt_b. destruct (Rlt_dec a b); split; intros; congruence || lra. Qed.

Lemma Rgt_b_true (a b : R) : Rgt_b a b = true <-> b < a.
Proof. unfold Rgt_b. destruct (Rgt_dec a b); split; intros; congruence || lra. Qed.

Lemma Rgt_b_false (a b : R) : Rgt_b a b = false <-> a <= b.
Proof. unfold Rgt_b. destruct (Rgt_dec a b); split; intros; congruence || lra. Qed.

Lemma Rle_b_true (a b : R) : Rle_b a b = true <-> a <= b.
Proof. unfold Rle_b. destruct (Rle_dec a b); split; intros; congruence || lra. Qed.

Lemma Rge_b_true (a b : R) : Rge_b a b = true <-> b <= a.
Proof. unfold Rge_b. destruct (Rge_dec a b); split; intros; congruence || lra. Qed.

Lemma Req_b_refl (a : R) : Req_b a a = true.
Proof. apply Req_b_true. reflexivity. Qed.

Lemma num_eqb_eq (a b : num) : num_eqb a b = true <-> a = b.
Proof.
  destruct a as [r1|], b as [r2|]; simpl; try (split; congruence).
  rewrite Req_b_true. split; congruence.
Qed.

Lemma num_eqb_neq (a b : num) : num_eqb a b = false <-> a <> b.
Proof.
  rewrite <- num_eqb_eq. destruct (num_eqb a b); split; congruence.
Qed.

Lemma num_eqb_refl (a : num) : num_eqb a a = true.
Proof. apply num_eqb_eq. reflexivity. Qed.

(** ** slope *)

Lemma slope_vertical (p1 p2 : Point) :
  fst p1 = fst p2 -> slope p1 p2 = Inf.
Proof.
  intros H. unfold slope. apply Req_b_true in H. rewrite H. reflexivity.
Qed.

Lemma slope_finite (p1 p2 : Point) :
  fst p1 <> fst p2 ->
  slope p1 p2 = Fin ((snd p2 - snd p1) / (fst p2 - fst p1)).
Proof.
  intros H. unfold slope. apply Req_b_false in H. rewrite H. reflexivity.
Qed.

(** The divisor of [slope] is not zero where the division is reached. *)
Lemma slope_divisor (p1 p2 : Point) :
  Req_b (fst p1) (fst p2) = false -> fst p2 - fst p1 <> 0.
Proof. rewrite Req_b_false. lra. Qed.

Lemma slope_Inf_iff (p1 p2 : Point) : slope p1 p2 = Inf <-> fst p1 = fst p2.
Proof.
  split; [| apply slope_vertical].
  unfold slope. destruct (Req_b (fst p1) (fst p2)) eqn:E; [| discriminate].
  intros _. now apply Req_b_true.
Qed.

(** C9: [slope p1 p2] is the infinite sentinel when the two points have the
    same x, and [(p2.y - p1.y) / (p2.x - p1.x)] otherwise. *)
Theorem slope_spec (p1 p2 : Point) :
  (fst p1 = fst p2 -> slope p1 p2 = Inf) /\
  (fst p1 <> fst p2 ->
   slope p1 p2 = Fin ((snd p2 - snd p1) / (fst p2 - fst p1))).
Proof. split; [apply slope_vertical | apply slope_finite]. Qed.

Lemma slope_spec_witness :
  slope (2, 0) (2, 7) = Inf /\ slope (1, 1) (3, 5) = Fin ((5 - 1) / (3 - 1)).
Proof.
  split.
  - apply (proj1 (slope_spec (2, 0) (2, 7))). reflexivity.
  - apply (proj2 (slope_spec (1, 1) (3, 5))). simpl. lra.
Defined.

(** ** on_segment *)

Lemma min_le_l (a b : R) : min a b <= a.
Proof. unfold min. destruct (Rlt_b a b) eqn:E; [lra |]. apply Rlt_b_false in E. lra. Qed.

Lemma min_le_r (a b : R) : min a b <= b.
Proof. unfold min. destruct (Rlt_b a b) eqn:E; [| lra]. apply Rlt_b_true in E. lra. Qed.

Lemma max_ge_l (a b : R) : a <= max a b.
Proof. unfold max. destruct (Rgt_b a b) eqn:E; [lra |]. apply Rgt_b_false in E. lra. Qed.

Lemma max_ge_r (a b : R) : b <= max a b.
Proof. unfold max. destruct (Rgt_b a b) eqn:E; [| lra]. apply Rgt_b_true in E. lra. Qed.



(** What [on_segment] tests, as a proposition. *)
Lemma on_segment_true (point : Point) (line : Line) :
  on_segment point line = true <->
  slope point (fst line) = slope point (snd line) /\
  min (fst (fst line)) (fst (snd line)) <= fst point /\
  fst point <= max (fst (fst line)) (fst (snd line)) /\
  min (snd (fst line)) (snd (snd line)) <= snd point /\
  snd point <= max (snd (fst line)) (snd (snd line)).
Proof.
  unfold on_segment. rewrite !andb_true_iff.
  rewrite num_eqb_eq, !Rge_b_true, !Rle_b_true. tauto.
Qed.

(** An endpoint passes the bounding-box tests of its own segment. *)
Lemma endpoint_in_box (line : Line) :
  (min (fst (fst line)) (fst (snd line)) <= fst (fst line) /\
   fst (fst line) <= max (fst (fst line)) (fst (snd line)) /\
   min (snd (fst line)) (snd (snd line)) <= snd (fst line) /\
   snd (fst line) <= max (snd (fst line)) (snd (snd line))) /\
  (min (fst (fst line)) (fst (snd line)) <= fst (snd line) /\
   fst (snd line) <= max (fst (fst line)) (fst (snd line)) /\
   min (snd (fst line)) (snd (snd line)) <= snd (snd line) /\
   snd (snd line) <= max (snd (fst line)) (snd (snd line))).
Proof.
  repeat split;
    first [apply min_le_l | apply min_le_r | apply max_ge_l | apply max_ge_r].
Qed.

(** An endpoint is reported on its own segment exactly when the segment is
    vertical: the slope from the endpoint to itself is the infinite sentinel,
    which equals the slope to the other endpoint only when the two endpoints
    have the same x. *)
Lemma on_segment_endpoint (line : Line) :
  (on_segment (fst line) line = true <-> fst (fst line) = fst (snd line)) /\
  (on_segment (snd line) line = true <-> fst (fst line) = fst (snd line)).
Proof.
  destruct (endpoint_in_box line) as [B0 B1].
  split; rewrite on_segment_true.
  - rewrite (slope_vertical (fst line) (fst line)) by reflexivity.
    split.
    + intros [H _]. symmetry in H. now apply slope_Inf_iff in H.
    + intros H. split; [| exact B0].
      symmetry. now apply slope_vertical.
  - rewrite (slope_vertical (snd line) (snd line)) by reflexivity.
    split.
    + intros [H _]. apply slope_Inf_iff in H. congruence.
    + intros H. split; [| exact B1].
      apply slope_vertical. congruence.
Qed.

(** C3, at the segment from (0,0) to (1,1): [on_segment] answers [False] for
    both endpoints of this segment. *)
Theorem on_segment_endpoint_diagonal :
  on_segment (0, 0) ((0, 0), (1, 1)) = false /\
  on_segment (1, 1) ((0, 0), (1, 1)) = false.
Proof.
  pose proof (on_segment_endpoint ((0, 0), (1, 1))) as [H0 H1].
  simpl in H0, H1.
  split.
  - destruct (on_segment (0, 0) ((0, 0), (1, 1))); [| reflexivity].
    assert (0 = 1) by (apply H0; reflexivity). lra.
  - destruct (on_segment (1, 1) ((0, 0), (1, 1))); [| reflexivity].
    assert (0 = 1) by (apply H1; reflexivity). lra.
Qed.

(** ** point_of_intersection *)

Lemma poi_parallel (line1 line2 : Line) :
  slope (fst line1) (snd line1) = slope (fst line2) (snd line2) ->
  point_of_intersection line1 line2 = PyFalse.
Proof.
  intros H. unfold point_of_intersection. rewrite H, num_eqb_refl. reflexivity.
Qed.




(** The divisor [slopeTemp] is not zero where the division is reached. *)
Lemma poi_divisor (slope1 slope2 : num) :
  num_eqb slope1 slope2 = false ->
  isinf slope1 = false -> isinf slope2 = false ->
  fin slope1 - fin slope2 <> 0.
Proof.
  destruct slope1 as [m1|], slope2 as [m2|]; simpl; try discriminate.
  intros H _ _. apply Req_b_false in H. lra.
Qed.

(** [point_of_intersection] answers [False] exactly for equal slopes. *)
Lemma poi_False_iff (line1 line2 : Line) :
  point_of_intersection line1 line2 = PyFalse <->
  slope (fst line1) (snd line1) = slope (fst line2) (snd line2).
Proof.
  split; [| apply poi_parallel].
  unfold point_of_intersection.
  destruct (num_eqb (slope (fst line1) (snd line1))
                    (slope (fst line2) (snd line2))) eqn:E.
  - intros _. now apply num_eqb_eq.
  - destruct (isinf _); [discriminate |]. destruct (isinf _); discriminate.
Qed.

(** C6: for two lines whose slopes are equal (both infinite included)
    [point_of_intersection] returns [False], which is no intersection
    point. *)
Theorem point_of_intersection_parallel (line1 line2 : Line) :
  slope (fst line1) (snd line1) = slope (fst line2) (snd line2) ->
  point_of_intersection line1 line2 = PyFalse /\
  forall p : Point, point_of_intersection line1 line2 <> PyTuple p.
Proof.
  intros H. rewrite (poi_parallel _ _ H). split; [reflexivity | discriminate].
Qed.

Lemma point_of_intersection_parallel_witness :
  (point_of_intersection ((0, 0), (0, 1)) ((3, 0), (3, 5)) = PyFalse /\
   forall p : Point,
     point_of_intersection ((0, 0), (0, 1)) ((3, 0), (3, 5)) <> PyTuple p) /\
  (point_of_intersection ((0, 0), (1, 1)) ((0, 1), (1, 2)) = PyFalse /\
   forall p : Point,
     point_of_intersection ((0, 0), (1, 1)) ((0, 1), (1, 2)) <> PyTuple p).
Proof.
  split; apply point_of_intersection_parallel.
  - rewrite !slope_vertical by reflexivity. reflexivity.
  - rewrite !slope_finite by (simpl; lra). simpl. f_equal. lra.
Defined.





(** ** distance *)



Lemma euclid_sym (p q : Point) : euclid p q = euclid q p.
Proof. unfold euclid. f_equal. ring. Qed.

Lemma euclid_refl (p : Point) : euclid p p = 0.
Proof.
  unfold euclid. rewrite <- sqrt_0 at 1. f_equal. ring.
Qed.



Lemma distance_tuple_tuple (p q : Point) :
  distance (PyTuple p) (PyTuple q) = Some (euclid p q).
Proof. simp distance. reflexivity. Qed.

Lemma distance_tuple_entity (p : Point) (b : Entity) :
  distance (PyTuple p) (PyEntity b) = Some (euclid p (x b, y b)).
Proof. simp distance. reflexivity. Qed.

Lemma distance_entity_tuple (a : Entity) (q : Point) :
  distance (PyEntity a) (PyTuple q) = distance (PyTuple q) (PyEntity a).
Proof. simp distance. reflexivity. Qed.

Lemma distance_entity_entity (a b : Entity) :
  distance (PyEntity a) (PyEntity b) = Some (euclid (x a, y a) (x b, y b)).
Proof. simp distance. reflexivity. Qed.

Lemma distance_tuple_False (p : Point) : distance (PyTuple p) PyFalse = None.
Proof. simp distance. reflexivity. Qed.

(** C8: [distance] of two points is symmetric and is 0 from a point to
    itself; the four cases of its dispatch all give the Euclidean distance of
    the coordinates, and the entity-and-point case is the point-and-entity
    case with the arguments swapped. *)
Theorem distance_spec (p q : Point) (a b : Entity) :
  distance (PyTuple p) (PyTuple q) = distance (PyTuple q) (PyTuple p) /\
  distance (PyTuple p) (PyTuple p) = Some 0 /\
  distance (PyTuple p) (PyTuple q) = Some (euclid p q) /\
  distance (PyTuple p) (PyEntity b) = Some (euclid p (x b, y b)) /\
  distance (PyEntity a) (PyTuple q) = Some (euclid (x a, y a) q) /\
  distance (PyEntity a) (PyEntity b) = Some (euclid (x a, y a) (x b, y b)) /\
  distance (PyEntity a) (PyTuple q) = distance (PyTuple q) (PyEntity a).
Proof.
  refine (conj _ (conj _ (conj _ (conj _ (conj _ (conj _ _)))))).
  - rewrite !distance_tuple_tuple. f_equal. apply euclid_sym.
  - rewrite distance_tuple_tuple. f_equal. apply euclid_refl.
  - apply distance_tuple_tuple.
  - apply distance_tuple_entity.
  - rewrite distance_entity_tuple, distance_tuple_entity. f_equal.
    apply euclid_sym.
  - apply distance_entity_entity.
  - apply distance_entity_tuple.
Qed.

(** ** collision of two entities *)

Lemma collision_entities (a b : Entity) :
  collision (PyEntity a) (PyEntity b) =
  Ok (Some (Rlt_b (euclid (center a) (center b))
                  (COLLISION_RADIUS a + COLLISION_RADIUS b))).
Proof. simp collision. rewrite distance_tuple_tuple. reflexivity. Qed.


(** C7: [collision] of a wall and an entity is [collision] of the entity and
    the wall, and [collision] of two entities does not depend on their
    order. *)
Theorem collision_swap (w : Wall) (e a b : Entity) :
  collision (PyWall w) (PyEntity e) = collision (PyEntity e) (PyWall w) /\
  collision (PyEntity a) (PyEntity b) = collision (PyEntity b) (PyEntity a).
Proof.
  split.
  - simp collision. reflexivity.
  - rewrite !collision_entities. do 3 f_equal.
    + apply euclid_sym.
    + apply Rplus_comm.
Qed.

(** ** angle_to_point *)

Lemma pymod_small (a b : R) : 0 <= a < b -> pymod a b = a.
Proof.
  intros [Ha Hb]. unfold pymod.
  assert (Hq : 0 <= a / b < 1).
  { assert (Hi : 0 < / b) by (apply Rinv_0_lt_compat; lra).
    assert (Hm : a / b * b = a) by (field; lra).
    unfold Rdiv in *. split; nra. }
  rewrite <- (Int_part_spec (a / b) 0%Z) by (simpl; lra).
  simpl. lra.
Qed.

(** The [% 360] of the source applies to [180] or [0] only, and changes
    neither. *)
Lemma pymod_correction (dx : R) :
  pymod (if Rlt_b dx 0 then 180 else 0) 360 = if Rlt_b dx 0 then 180 else 0.
Proof. destruct (Rlt_b dx 0); apply pymod_small; lra. Qed.


Lemma degrees_atan_1 : degrees (atan 1) = 45.
Proof.
  unfold degrees. rewrite atan_1. field. apply PI_neq0.
Qed.

(** C4: for a point whose x differs from the entity's, [angle_to_point] is
    [-degrees(atan(dy/dx))] plus 180 when [dx < 0] and plus 0 otherwise, with
    no reduction modulo 360 of the sum; the value is negative for some point
    to the right of the entity. *)
Theorem angle_to_point_spec :
  (forall (e : Entity) (p : Point),
      fst p <> x e ->
      angle_to_point e p =
      Ok (- degrees (atan ((snd p - y e) / (fst p - x e)))
          + (if Rlt_b (fst p - x e) 0 then 180 else 0))) /\
  (exists (e : Entity) (p : Point) (v : R),
      x e < fst p /\ angle_to_point e p = Ok v /\ v < 0).
Proof.
  split.
  - intros e p H. unfold angle_to_point, pydiv.
    replace (Req_b (fst p - x e) 0) with false.
    + simpl. rewrite pymod_correction. reflexivity.
    + symmetry. apply Req_b_false. lra.
  - exists (mkEntity 0 0 1 (0, 0)), (1, 1), (-45). simpl.
    split; [lra |]. split; [| lra].
    unfold angle_to_point, pydiv. simpl.
    replace (Req_b (1 - 0) 0) with false by (symmetry; apply Req_b_false; lra).
    simpl. rewrite pymod_correction.
    replace ((1 - 0) / (1 - 0)) with 1 by (field; lra).
    rewrite degrees_atan_1.
    replace (Rlt_b (1 - 0) 0) with false by (symmetry; apply Rlt_b_false; lra).
    f_equal. lra.
Qed.

Lemma angle_to_point_spec_witness :
  angle_to_point (mkEntity 0 0 1 (0, 0)) (-1, 0) = Ok 180.
Proof.
  rewrite (proj1 angle_to_point_spec) by (simpl; lra). simpl.
  replace ((0 - 0) / (-1 - 0)) with 0 by (field; lra).
  rewrite atan_0.
  replace (Rlt_b (-1 - 0) 0) with true by (symmetry; apply Rlt_b_true; lra).
  unfold degrees. f_equal. lra.
Defined.

(** ** collision of an entity and a wall *)



Section EntityWall.

Variable e : Entity.
Hypothesis center_is_position : center e = (x e, y e).

(** *** The line through the center and [temp_point] *)


Lemma temp_point_horizontal (side : Line) :
  slope (fst side) (snd side) = Fin 0 ->
  temp_point e side = (x e, y e + 1).
Proof.
  intros H. unfold temp_point. rewrite H. simpl.
  rewrite Rabs_R0, Req_b_refl. reflexivity.
Qed.


(** The divisor of [-1 / slope] is not zero where the division is
    reached. *)
Lemma temp_point_divisor (side : Line) :
  num_eqb (num_abs (slope (fst side) (snd side))) (Fin 0) = false ->
  isinf (slope (fst side) (snd side)) = false ->
  fin (slope (fst side) (snd side)) <> 0.
Proof.
  destruct (slope (fst side) (snd side)) as [m|]; simpl; [| discriminate].
  intros H _ Hm. apply Req_b_false in H. apply H. rewrite Hm. apply Rabs_R0.
Qed.





(** *** One side *)




End EntityWall.

(** *** The loop over the sides *)













(** The hypothesis on the center is needed: when the center is not the
    position, the constructed line can be parallel to a side, and the
    comparison of [None] with the radius raises. *)
Lemma collision_center_off_position :
  collision (PyEntity (mkEntity 0 0 1 (1, 1)))
            (PyWall (mkWall [(0, 5); (10, 5)]))
  = Raise TypeError.
Proof.
  assert (S : slope (0, 5) (10, 5) = Fin 0).
  { rewrite slope_finite by (simpl; lra). simpl. f_equal. lra. }
  simp collision. unfold num_vertices. simpl.
  unfold collision_side, index. simpl.
  rewrite (temp_point_horizontal _ ((0, 5), (10, 5)) S). simpl.
  rewrite poi_parallel.
  - rewrite distance_tuple_False. reflexivity.
  - simpl. rewrite S. rewrite slope_finite by (simpl; lra). simpl.
    f_equal. lra.
Qed.

(** * Further properties of the functions of [geom.py] *)

(** ** max, min and sign *)

(** X1: [max] returns one of its arguments, which is at least both; [min]
    returns one of its arguments, which is at most both; together they
    return the two arguments. *)
Theorem max_min_spec (a b : R) :
  (max a b = a \/ max a b = b) /\ a <= max a b /\ b <= max a b /\
  (min a b = a \/ min a b = b) /\ min a b <= a /\ min a b <= b /\
  min a b + max a b = a + b.
Proof.
  pose proof (max_ge_l a b). pose proof (max_ge_r a b).
  pose proof (min_le_l a b). pose proof (min_le_r a b).
  unfold max, min in *.
  destruct (Rgt_b a b) eqn:Eg; destruct (Rlt_b a b) eqn:El;
    try apply Rgt_b_true in Eg; try apply Rgt_b_false in Eg;
    try apply Rlt_b_true in El; try apply Rlt_b_false in El;
    repeat split; auto; lra.
Qed.

Lemma sign_pos (n : R) : 0 < n -> sign n = 1%Z.
Proof.
  intros H. unfold sign.
  replace (Req_b n 0) with false by (symmetry; apply Req_b_false; lra).
  replace (Rgt_b n 0) with true by (symmetry; apply Rgt_b_true; lra).
  reflexivity.
Qed.

Lemma sign_zero : sign 0 = 0%Z.
Proof. unfold sign. rewrite Req_b_refl. reflexivity. Qed.

Lemma sign_neg (n : R) : n < 0 -> sign n = (-1)%Z.
Proof.
  intros H. unfold sign.
  replace (Req_b n 0) with false by (symmetry; apply Req_b_false; lra).
  replace (Rgt_b n 0) with false by (symmetry; apply Rgt_b_false; lra).
  reflexivity.
Qed.

(** The three cases of a real number, each with the value of [sign]. *)
Lemma sign_cases (n : R) :
  (n < 0 /\ sign n = (-1)%Z) \/ (n = 0 /\ sign n = 0%Z) \/
  (0 < n /\ sign n = 1%Z).
Proof.
  destruct (Rtotal_order n 0) as [H | [H | H]].
  - left. split; [exact H | now apply sign_neg].
  - right. left. subst n. split; [reflexivity | apply sign_zero].
  - right. right. split; [exact H | now apply sign_pos].
Qed.

(** X2: [sign] is 1, 0 or -1 as its argument is positive, zero or negative;
    it is multiplicative and odd, and a number is its sign times its absolute
    value. *)
Theorem sign_spec (n m : R) :
  (sign n = 1%Z <-> 0 < n) /\
  (sign n = 0%Z <-> n = 0) /\
  (sign n = (-1)%Z <-> n < 0) /\
  sign (n * m) = (sign n * sign m)%Z /\
  sign (- n) = (- sign n)%Z /\
  IZR (sign n) * Rabs n = n.
Proof.
  refine (conj _ (conj _ (conj _ (conj _ (conj _ _))))).
  - destruct (sign_cases n) as [[H ->] | [[H ->] | [H ->]]];
      split; intros; try discriminate; try lra; reflexivity.
  - destruct (sign_cases n) as [[H ->] | [[H ->] | [H ->]]];
      split; intros; try discriminate; try lra; reflexivity.
  - destruct (sign_cases n) as [[H ->] | [[H ->] | [H ->]]];
      split; intros; try discriminate; try lra; reflexivity.
  - destruct (sign_cases n) as [[Hn ->] | [[Hn ->] | [Hn ->]]];
      destruct (sign_cases m) as [[Hm ->] | [[Hm ->] | [Hm ->]]];
      subst; rewrite ?Rmult_0_l, ?Rmult_0_r, ?sign_zero; try reflexivity.
    + apply sign_pos. nra.
    + apply sign_neg. nra.
    + apply sign_neg. nra.
    + apply sign_pos. nra.
  - destruct (sign_cases n) as [[H ->] | [[H ->] | [H ->]]].
    + apply sign_pos. lra.
    + subst n. rewrite Ropp_0. apply sign_zero.
    + apply sign_neg. lra.
  - destruct (sign_cases n) as [[H ->] | [[H ->] | [H ->]]].
    + rewrite Rabs_left by exact H. lra.
    + subst n. rewrite Rabs_R0. lra.
    + rewrite Rabs_right by lra. lra.
Qed.

(** ** More on slope *)

(** X3: the slope of two points does not depend on their order, and does not
    change when both points are moved by the same vector. *)
Theorem slope_symmetric_translation (p1 p2 : Point) (dx dy : R) :
  slope p1 p2 = slope p2 p1 /\
  slope (fst p1 + dx, snd p1 + dy) (fst p2 + dx, snd p2 + dy) = slope p1 p2.
Proof.
  destruct p1 as [x1 y1], p2 as [x2 y2].
  destruct (Req_dec_T x1 x2) as [E | N].
  - split.
    + rewrite !slope_vertical by (simpl; lra). reflexivity.
    + rewrite !slope_vertical by (simpl; lra). reflexivity.
  - split.
    + rewrite !slope_finite by (simpl; lra). simpl. f_equal. field. lra.
    + rewrite !slope_finite by (simpl; lra). simpl. f_equal. field. lra.
Qed.

(** ** More on on_segment *)










(** ** More on point_of_intersection *)






(** ** More on distance *)






(** ** More on angle_to_point *)






(** ** More on collision *)

(** X13: [collision] returns [None] exactly for the pairs of objects it has
    no case for; for two entities, or an entity and a wall in either order,
    it returns a boolean or raises. *)
Theorem collision_None_iff (a b : pyobj) :
  collision a b = Ok None <-> collision_case a b = false.
Proof.
  destruct a as [p | e | w |], b as [q | e' | w' |];
    simp collision; simpl; try tauto.
  - rewrite distance_tuple_tuple. simpl. split; discriminate.
  - destruct (collision_loop _ _ _); simpl; split; discriminate.
  - destruct (collision_loop _ _ _); simpl; split; discriminate.
Qed.











(** X17: when the center of the entity is one unit above its position in y
    and not at its x, and the first side of the wall is horizontal,
    [collision] raises [TypeError]: the line it constructs is parallel to
    the side, [point_of_intersection] returns [False], and the distance to
    it is [None]. *)
Theorem collision_raises_off_center
        (e : Entity) (w : Wall) (v0 v1 : Point) (rest : list Point) :
  vertices w = v0 :: v1 :: rest ->
  snd v0 = snd v1 -> fst v0 <> fst v1 ->
  fst (center e) <> x e -> snd (center e) = y e + 1 ->
  collision (PyEntity e) (PyWall w) = Raise TypeError.
Proof.
  intros Hv Hy Hx Hcx Hcy.
  assert (S : slope (fst (v0, v1)) (snd (v0, v1)) = Fin 0).
  { simpl. rewrite slope_finite by exact Hx. f_equal. rewrite Hy.
    unfold Rdiv. ring. }
  assert (Hside : collision_side e w 0 = Raise TypeError).
  { unfold collision_side, index, num_vertices. rewrite Hv.
    replace ((0 + 1) mod length (v0 :: v1 :: rest))%nat with 1%nat
      by (symmetry; apply Nat.mod_small; simpl; lia).
    simpl. rewrite (temp_point_horizontal e (v0, v1) S).
    rewrite poi_parallel.
    - rewrite distance_tuple_False. reflexivity.
    - rewrite S. simpl. rewrite slope_finite by (simpl; lra). simpl.
      f_equal. rewrite Hcy. unfold Rdiv. ring. }
  simp collision. unfold num_vertices. rewrite Hv. simpl length.
  simpl seq. simpl collision_loop. rewrite Hside. reflexivity.
Qed.

Lemma collision_raises_off_center_witness :
  collision (PyEntity (mkEntity 3 2 1 (4, 3)))
            (PyWall (mkWall [(0, 0); (10, 0); (10, 10); (0, 10)]))
  = Raise TypeError.
Proof.
  apply (collision_raises_off_center _ _ (0, 0) (10, 0) [(10, 10); (0, 10)]).
  - reflexivity.
  - reflexivity.
  - simpl. lra.
  - simpl. lra.
  - simpl. lra.
Defined.



(** *** Sides parallel to an axis *)






(** *** Sides that are not parallel to an axis *)



